(** * Task Management API (task-management-api/main.py)

    A shallow embedding of the three request handlers of [main.py] and of the
    request binding that their decorators and signatures ask the web framework
    to perform, followed by the properties of the service.

    Layout:
    - [Py]: the Python values the handlers build (dict and list literals,
      [str] of an integer, the [or] operator on an optional string);
    - the handlers [get_welcome_message], [get_task_by_id], [search_tasks];
    - the routes of [app] and the binding of path and query parameters;
    - the handler bodies as expressions, evaluated where a clock, a random
      generator and module-level variables can be read;
    - the properties. *)

From Stdlib Require Import ZArith String Ascii List Bool.
From Stdlib Require Import Decimal DecimalString DecimalZ DecimalPos.
From Stdlib Require Import PrimFloat.
From stdpp Require Import gmap strings.

Local Open Scope Z_scope.
Local Open Scope string_scope.

(* ===================================================================== *)
(** ** Python values *)
(* ===================================================================== *)

Module Py.

(** The values the handlers return: [None], integers (unbounded, as in
    Python), floats (binary64), strings, lists and dicts.  A dict literal
    keeps its keys in the order they are written. *)
#[warnings="-register-all"] Inductive value : Type :=
| VNone
| VInt (n : Z)
| VFloat (x : float)
| VStr (s : string)
| VList (xs : list value)
| VDict (items : list (string * value)).

(** [d[k]] on an association list of items; the first binding wins (the
    dict literals below have no repeated key). *)
Fixpoint lookup_item (k : string) (items : list (string * value)) : option value :=
  match items with
  | [] => None
  | (k', v) :: rest => if String.eqb k k' then Some v else lookup_item k rest
  end.

(** [v[k]]: defined on dicts only. *)
Definition get (k : string) (v : value) : option value :=
  match v with
  | VDict items => lookup_item k items
  | _ => None
  end.

(** [len(v)] of a list. *)
Definition len (v : value) : option nat :=
  match v with
  | VList xs => Some (length xs)
  | _ => None
  end.

(** A path of keys into nested dicts: [v[k1][k2]...]. *)
Fixpoint get_path (ks : list string) (v : value) : option value :=
  match ks with
  | [] => Some v
  | k :: rest => match get k v with
                 | Some v' => get_path rest v'
                 | None => None
                 end
  end.

(** [str(n)] for an integer: decimal digits, a leading [-] when negative,
    ["0"] for zero.  This is what an f-string field [{n}] renders. *)
Definition str (n : Z) : string := NilZero.string_of_int (Z.to_int n).

(** A value of type [str | None] as a Python value. *)
Definition of_optional (s : option string) : value :=
  match s with
  | Some s => VStr s
  | None => VNone
  end.

(** [s or d] for [s : str | None]: [s] when it is truthy, that is a
    non-empty string, and [d] otherwise ([None] and [""] are both falsy). *)
Definition or_else (s : option string) (d : string) : string :=
  match s with
  | Some (String c r) => String c r
  | Some EmptyString => d
  | None => d
  end.

(** [needle in hay] for strings. *)
Definition contains (needle hay : string) : Prop :=
  exists pre post, hay = pre ++ needle ++ post.

End Py.

Import Py.

(* ===================================================================== *)
(** ** The handlers of main.py *)
(* ===================================================================== *)

(** The float literals of [search_tasks], as binary64 values. *)
#[warnings="-inexact-float"] Definition score_first : float := 0.95%float.
#[warnings="-inexact-float"] Definition score_second : float := 0.87%float.

(** [get_welcome_message()] (main.py, lines 10-18). *)
Definition get_welcome_message : value :=
  VDict [ ("message", VStr "Welcome to the Task Management API!");
          ("version", VStr "1.0.0");
          ("docs", VStr "/docs");
          ("status", VStr "operational") ].

(** The timestamp literal of [get_task_by_id]. *)
Definition created_at_literal : string := "2026-01-09T00:00:00Z".

(** [get_task_by_id(task_id: int)] (main.py, lines 21-39). *)
Definition get_task_by_id (task_id : Z) : value :=
  VDict [ ("task_id", VInt task_id);
          ("title", VStr ("Task #" ++ str task_id));
          ("description", VStr ("This is task number " ++ str task_id));
          ("status", VStr "pending");
          ("priority", VStr "medium");
          ("created_at", VStr created_at_literal) ].

(** [search_tasks(q: str, limit: int = 10, offset: int = 0,
                  status: str | None = None)] (main.py, lines 42-83).
    The defaults belong to the signature and are applied by the binding
    below; the body is applied to bound arguments. *)
Definition search_tasks (q : string) (limit offset : Z) (status : option string) : value :=
  VDict [ ("query", VStr q);
          ("filters", VDict [ ("status", of_optional status);
                              ("limit", VInt limit);
                              ("offset", VInt offset) ]);
          ("total_results", VInt 42);
          ("results",
           VList [ VDict [ ("task_id", VInt (offset + 1));
                           ("title", VStr ("Task matching '" ++ q ++ "'"));
                           ("status", VStr (or_else status "pending"));
                           ("relevance_score", VFloat score_first) ];
                   VDict [ ("task_id", VInt (offset + 2));
                           ("title", VStr ("Another task for '" ++ q ++ "'"));
                           ("status", VStr (or_else status "in_progress"));
                           ("relevance_score", VFloat score_second) ] ]) ].

(* ===================================================================== *)
(** ** Requests, responses and the routes of [app] *)
(* ===================================================================== *)

(** A GET request as the router sees it: the path, and the query
    parameters as a mapping from name to the supplied text (query strings
    are decoded before they reach the binding, and the mapping holds one
    value per name). *)
Record Request : Type := mkRequest {
  path : string;
  query : gmap string string
}.

(** One entry of the [detail] array of a validation error: its ["type"]
    and its ["loc"] (where the offending parameter lives, then its name). *)
Record ErrorDetail : Type := mkError {
  err_type : string;
  err_loc : list string
}.

Inductive Response : Type :=
| Ok (body : value)                          (* 200, the handler's dict as JSON *)
| Unprocessable (detail : list ErrorDetail)  (* 422, {"detail": [...]} *)
| NotFound.                                  (* 404, no route *)

Definition status_code (r : Response) : Z :=
  match r with
  | Ok _ => 200
  | Unprocessable _ => 422
  | NotFound => 404
  end.

(** [detail[0]] of a 422 response. *)
Definition first_error (r : Response) : option ErrorDetail :=
  match r with
  | Unprocessable (e :: _) => Some e
  | _ => None
  end.

(** *** Path matching *)

(** [s] with the prefix [p] removed, when [s] starts with [p]. *)
Fixpoint strip_prefix (p s : string) : option string :=
  match p, s with
  | EmptyString, _ => Some s
  | String a p', String b s' => if Ascii.eqb a b then strip_prefix p' s' else None
  | String _ _, EmptyString => None
  end.

Definition is_slash (c : ascii) : bool := Ascii.eqb c "/"%char.

Fixpoint has_slash (s : string) : bool :=
  match s with
  | EmptyString => false
  | String c r => is_slash c || has_slash r
  end.

(** Modelled from the spec: the router is the web framework's and is not
    among the repository's files.  A path parameter [{task_id}] matches one
    path segment: one or more characters, none of them a slash.  "An empty
    path segment (trailing slash with nothing after it) does not match this
    route" (spec 4.1; tests/test_main.py, test_get_task_with_empty_string_id). *)
Definition is_segment (s : string) : bool :=
  negb (String.eqb s "") && negb (has_slash s).

(** The routes declared by the [@app.get] decorators of main.py, in the
    order of their declaration. *)
Inductive Route : Type :=
| RWelcome                      (* @app.get("/") *)
| RTask (segment : string)      (* @app.get("/tasks/{task_id}") *)
| RSearch.                      (* @app.get("/search") *)

(** The first route whose path template matches the whole path. *)
Definition route_of (p : string) : option Route :=
  if String.eqb p "/" then Some RWelcome
  else match strip_prefix "/tasks/" p with
       | Some seg => if is_segment seg then Some (RTask seg) else None
       | None => if String.eqb p "/search" then Some RSearch else None
       end.

(* ===================================================================== *)
(** ** Parameter binding *)
(* ===================================================================== *)

(** A bound parameter: its value, or the validation error to report. *)
Definition Bound (A : Type) : Type := (A + ErrorDetail)%type.

Definition errors_of {A : Type} (b : Bound A) : list ErrorDetail :=
  match b with
  | inl _ => []
  | inr e => [e]
  end.

Section Binding.

(** The conversion of parameter text to [int] is done by the validation
    library, which is not among the repository's files; the binding is
    stated for any such conversion. *)
Variable parse_int : string -> option Z.

(** Modelled from the spec: the parameter binding is the web framework's.
    A parameter annotated [int] is bound from the text [raw]; text that is
    not converted fails parameter binding with an error of type
    int_parsing whose loc names the parameter (spec 4.1;
    tests/test_main.py, test_get_task_with_invalid_id_type_string). *)
Definition bind_int (place name raw : string) : Bound Z :=
  match parse_int raw with
  | Some n => inl n
  | None => inr (mkError "int_parsing" [place; name])
  end.

(** Modelled from the spec: the parameter binding is the web framework's.
    A query parameter annotated [str] without default is required: its
    absence yields HTTP 422 with a first detail of type missing that names
    the parameter, and any supplied text, the empty string included, is
    accepted (spec 4.1;
    tests/test_main.py, test_search_without_query_param and
    test_search_with_empty_query). *)
Definition required_str (name : string) (raw : option string) : Bound string :=
  match raw with
  | Some s => inl s
  | None => inr (mkError "missing" ["query"; name])
  end.

(** A query parameter annotated [int] with a default (main.py, lines 45-46):
    absent, it binds the default; supplied, it is converted. *)
Definition optional_int (name : string) (default : Z) (raw : option string) : Bound Z :=
  match raw with
  | Some s => bind_int "query" name s
  | None => inl default
  end.

(** Binding for [get_task_by_id(task_id: int)]: the path segment is
    converted, and the handler runs only when that succeeds. *)
Definition call_get_task_by_id (segment : string) : Response :=
  match bind_int "path" "task_id" segment with
  | inl task_id => Ok (get_task_by_id task_id)
  | inr e => Unprocessable [e]
  end.

(** Binding for [search_tasks(q: str, limit: int = 10, offset: int = 0,
    status: str | None = None)]: every parameter is bound, the errors are
    reported together in the order of the signature, and the handler runs
    only when there is none.  [status] is an optional string: any supplied
    text is accepted as it is, and absence binds [None]. *)
Definition call_search_tasks (params : gmap string string) : Response :=
  let q := required_str "q" (params !! "q") in
  let limit := optional_int "limit" 10 (params !! "limit") in
  let offset := optional_int "offset" 0 (params !! "offset") in
  let status := params !! "status" in
  match q, limit, offset with
  | inl q, inl limit, inl offset => Ok (search_tasks q limit offset status)
  | _, _, _ => Unprocessable (errors_of q ++ errors_of limit ++ errors_of offset)
  end.

Definition serve (r : Route) (params : gmap string string) : Response :=
  match r with
  | RWelcome => Ok get_welcome_message
  | RTask segment => call_get_task_by_id segment
  | RSearch => call_search_tasks params
  end.

(** Modelled from the spec: the router is the web framework's.  A request
    is served by the route its path matches, and the answer is "HTTP 404 for
    any path not matching a declared route" (spec 7).  Only the routes
    declared in main.py are modelled. *)
Definition handle (req : Request) : Response :=
  match route_of (path req) with
  | Some r => serve r (query req)
  | None => NotFound
  end.

End Binding.

(** Plain signed decimal numerals, [-?[0-9]+], read as integers: the
    spellings [str] produces.  The validation library reads at least these;
    this reader is used to run the binding on concrete requests. *)
Definition decimal_int (s : string) : option Z :=
  option_map Z.of_int (NilZero.int_of_string s).

(** [GET path?k1=v1&k2=v2...], the names being distinct. *)
Definition GET (p : string) (params : list (string * string)) : Request :=
  mkRequest p (list_to_map params).

(** *** Reading a response body *)

(** [data["results"]] as the list of its records. *)
Definition results_of (body : value) : list value :=
  match get "results" body with
  | Some (VList records) => records
  | _ => []
  end.

(** [result["task_id"]] of a record, when it is an integer. *)
Definition task_id_of (record : value) : option Z :=
  match get "task_id" record with
  | Some (VInt n) => Some n
  | _ => None
  end.

(** [result["status"]] of a record, when it is a string. *)
Definition status_of (record : value) : option string :=
  match get "status" record with
  | Some (VStr s) => Some s
  | _ => None
  end.

(** [[result["task_id"] for result in data["results"]]]; the pagination
    test builds the set of these (tests/test_main.py, lines 433-434). *)
Definition task_ids (body : value) : list Z := omap task_id_of (results_of body).

(** [data["total_results"]], when it is an integer. *)
Definition total_results_of (body : value) : option Z :=
  match get "total_results" body with
  | Some (VInt n) => Some n
  | _ => None
  end.

(* ===================================================================== *)
(** ** The handler bodies as written, and what a body can read *)
(* ===================================================================== *)

(** The expressions a handler body of main.py is written in, together with
    the expressions by which a Python function reads what is not among its
    parameters: the clock, the random generator, a module-level variable. *)
#[warnings="-register-all"] Inductive expr : Type :=
| EParam (name : string)                  (* a parameter of the handler *)
| EInt (n : Z)                            (* integer literal *)
| EFloat (x : float)                      (* float literal *)
| EStr (s : string)                       (* string literal *)
| EAdd (a b : expr)                       (* a + b *)
| EOr (a b : expr)                        (* a or b *)
| EFormat (parts : list expr)             (* f-string: text chunks and {fields} *)
| EList (items : list expr)               (* [e1, e2, ...] *)
| EDict (items : list (string * expr))    (* {"k1": e1, "k2": e2, ...} *)
| ENow                                    (* the current time, as text *)
| ERandom                                 (* random.random() *)
| EGlobal (name : string).                (* a module-level variable *)

(** What is there to read outside the parameters when a handler runs. *)
Record World : Type := mkWorld {
  clock : string;
  random : float;
  globals : gmap string value
}.

(** Two worlds that differ in all they hold. *)
Definition world_morning : World :=
  mkWorld "2026-01-09T08:00:00Z" 0.25%float ∅.
Definition world_later : World :=
  mkWorld "2031-05-01T23:59:59Z" 0.75%float {[ "counter" := VInt 7 ]}.

(** Python's truth value of an object, as [or] tests it. *)
Definition truthy (v : value) : bool :=
  match v with
  | VNone => false
  | VInt n => negb (Z.eqb n 0)
  | VFloat x => negb (PrimFloat.eqb x 0%float)
  | VStr s => negb (String.eqb s "")
  | VList xs => match xs with [] => false | _ => true end
  | VDict items => match items with [] => false | _ => true end
  end.

(** How an f-string renders a field: a string as it is, an integer by
    [str], [None] as its name.  The bodies of main.py format nothing else. *)
Definition format_value (v : value) : option string :=
  match v with
  | VStr s => Some s
  | VInt n => Some (str n)
  | VNone => Some "None"
  | _ => None
  end.

(** The rendered parts of an f-string, put together. *)
Fixpoint join (texts : list string) : string :=
  match texts with
  | [] => ""
  | [t] => t
  | t :: rest => t ++ join rest
  end.

(** The value of an expression, given the world and the arguments bound to
    the parameters; [None] when Python would raise (an unbound name, [+] on
    operands that are not both integers, a field the model does not format). *)
Fixpoint eval (w : World) (args : list (string * value)) (e : expr) {struct e} : option value :=
  match e with
  | EParam name => lookup_item name args
  | EInt n => Some (VInt n)
  | EFloat x => Some (VFloat x)
  | EStr s => Some (VStr s)
  | EAdd a b =>
      match eval w args a, eval w args b with
      | Some (VInt x), Some (VInt y) => Some (VInt (x + y))
      | _, _ => None
      end
  | EOr a b =>
      match eval w args a with
      | Some v => if truthy v then Some v else eval w args b
      | None => None
      end
  | EFormat parts =>
      option_map (fun texts => VStr (join texts))
        ((fix render (parts : list expr) : option (list string) :=
            match parts with
            | [] => Some []
            | part :: rest =>
                match eval w args part with
                | Some v =>
                    match format_value v, render rest with
                    | Some t, Some ts => Some (t :: ts)
                    | _, _ => None
                    end
                | None => None
                end
            end) parts)
  | EList items =>
      option_map VList
        ((fix each (items : list expr) : option (list value) :=
            match items with
            | [] => Some []
            | item :: rest =>
                match eval w args item, each rest with
                | Some v, Some vs => Some (v :: vs)
                | _, _ => None
                end
            end) items)
  | EDict items =>
      option_map VDict
        ((fix each (items : list (string * expr)) : option (list (string * value)) :=
            match items with
            | [] => Some []
            | (k, item) :: rest =>
                match eval w args item, each rest with
                | Some v, Some vs => Some ((k, v) :: vs)
                | _, _ => None
                end
            end) items)
  | ENow => Some (VStr (clock w))
  | ERandom => Some (VFloat (random w))
  | EGlobal name => globals w !! name
  end.

(** The expression returned by [get_welcome_message] (main.py, lines 13-18). *)
Definition get_welcome_message_body : expr :=
  EDict [ ("message", EStr "Welcome to the Task Management API!");
          ("version", EStr "1.0.0");
          ("docs", EStr "/docs");
          ("status", EStr "operational") ].

(** The expression returned by [get_task_by_id] (main.py, lines 32-39). *)
Definition get_task_by_id_body : expr :=
  EDict [ ("task_id", EParam "task_id");
          ("title", EFormat [EStr "Task #"; EParam "task_id"]);
          ("description", EFormat [EStr "This is task number "; EParam "task_id"]);
          ("status", EStr "pending");
          ("priority", EStr "medium");
          ("created_at", EStr "2026-01-09T00:00:00Z") ].

(** The expression returned by [search_tasks] (main.py, lines 61-83). *)
#[warnings="-inexact-float"] Definition search_tasks_body : expr :=
  EDict [ ("query", EParam "q");
          ("filters", EDict [ ("status", EParam "status");
                              ("limit", EParam "limit");
                              ("offset", EParam "offset") ]);
          ("total_results", EInt 42);
          ("results",
           EList [ EDict [ ("task_id", EAdd (EParam "offset") (EInt 1));
                           ("title", EFormat [EStr "Task matching '"; EParam "q"; EStr "'"]);
                           ("status", EOr (EParam "status") (EStr "pending"));
                           ("relevance_score", EFloat 0.95%float) ];
                   EDict [ ("task_id", EAdd (EParam "offset") (EInt 2));
                           ("title", EFormat [EStr "Another task for '"; EParam "q"; EStr "'"]);
                           ("status", EOr (EParam "status") (EStr "in_progress"));
                           ("relevance_score", EFloat 0.87%float) ] ]) ].

(** The arguments of a call of [get_task_by_id]. *)
Definition task_args (task_id : Z) : list (string * value) :=
  [ ("task_id", VInt task_id) ].

(** The arguments of a call of [search_tasks]. *)
Definition search_args (q : string) (limit offset : Z) (status : option string)
    : list (string * value) :=
  [ ("q", VStr q); ("limit", VInt limit); ("offset", VInt offset);
    ("status", of_optional status) ].

Section BindingInWorld.

Variable parse_int : string -> option Z.

(** A handler called in a world: the response is 200 with the value of its
    body; there is none when the body raises. *)
Definition respond (w : World) (body : expr) (args : list (string * value)) : option Response :=
  option_map Ok (eval w args body).

(** [serve], with the handler bodies evaluated in the world [w]: the routes
    and the binding are those of [serve]. *)
Definition serve_in (w : World) (r : Route) (params : gmap string string) : option Response :=
  match r with
  | RWelcome => respond w get_welcome_message_body []
  | RTask segment =>
      match bind_int parse_int "path" "task_id" segment with
      | inl task_id => respond w get_task_by_id_body (task_args task_id)
      | inr e => Some (Unprocessable [e])
      end
  | RSearch =>
      let q := required_str "q" (params !! "q") in
      let limit := optional_int parse_int "limit" 10 (params !! "limit") in
      let offset := optional_int parse_int "offset" 0 (params !! "offset") in
      let status := params !! "status" in
      match q, limit, offset with
      | inl q, inl limit, inl offset =>
          respond w search_tasks_body (search_args q limit offset status)
      | _, _, _ => Some (Unprocessable (errors_of q ++ errors_of limit ++ errors_of offset))
      end
  end.

(** [handle], with the handler bodies evaluated in the world [w]. *)
Definition handle_in (w : World) (req : Request) : option Response :=
  match route_of (path req) with
  | Some r => serve_in w r (query req)
  | None => Some NotFound
  end.

End BindingInWorld.

Example ex_welcome : handle decimal_int (GET "/" []) = Ok get_welcome_message.
Proof. reflexivity. Qed.
Example ex_task : handle decimal_int (GET "/tasks/123" []) = Ok (get_task_by_id 123).
Proof. reflexivity. Qed.
Example ex_task_bad : handle decimal_int (GET "/tasks/12.3" []) = Unprocessable [mkError "int_parsing" ["path"; "task_id"]].
Proof. reflexivity. Qed.
Example ex_no_route : handle decimal_int (GET "/tasks/" []) = NotFound.
Proof. reflexivity. Qed.
Example ex_search : handle decimal_int (GET "/search" [("q","X");("limit","5");("offset","10");("status","completed")]) = Ok (search_tasks "X" 5 10 (Some "completed")).
Proof. reflexivity. Qed.
(* ===================================================================== *)
(** ** Facts about strings, [str] and the decimal reader *)
(* ===================================================================== *)

Lemma append_empty_r (s : string) : s ++ "" = s.
Proof.
  induction s as [|c r IH]; [reflexivity|].
  change (String c (r ++ "") = String c r). now rewrite IH.
Qed.

Lemma contains_suffix (pre s : string) : contains s (pre ++ s).
Proof. exists pre, "". now rewrite append_empty_r. Qed.

Lemma contains_middle (pre s post : string) : contains s (pre ++ s ++ post).
Proof. now exists pre, post. Qed.

(** [str n] is never the spelling of an empty digit sequence. *)
Lemma to_int_not_nil (n : Z) : Z.to_int n <> Pos Nil /\ Z.to_int n <> Neg Nil.
Proof.
  destruct n as [|p|p]; simpl; split; try discriminate;
    intros E; injection E as E; exact (Unsigned.to_uint_nonnil p E).
Qed.

(** The decimal reader reads back what [str] writes. *)
Lemma decimal_int_str (n : Z) : decimal_int (str n) = Some n.
Proof.
  unfold decimal_int, str.
  destruct (to_int_not_nil n) as [Hp Hn].
  rewrite (NilZero.isi _ Hp Hn). simpl. now rewrite DecimalZ.of_to.
Qed.

(** A string of decimal digits holds no slash. *)
Lemma digits_no_slash (s : string) (u : uint) :
  NilEmpty.uint_of_string s = Some u -> has_slash s = false.
Proof.
  revert u. induction s as [|c r IH]; intros u H; [reflexivity|].
  simpl in H. destruct (NilEmpty.uint_of_string r) as [u'|] eqn:Er.
  - simpl. rewrite (IH u' eq_refl), orb_false_r.
    unfold is_slash. destruct (Ascii.eqb_spec c "/"%char) as [->|]; [discriminate H | reflexivity].
  - discriminate H.
Qed.

(** Whatever the decimal reader accepts is a path segment. *)
Lemma decimal_int_segment (s : string) (n : Z) :
  decimal_int s = Some n -> is_segment s = true.
Proof.
  unfold decimal_int, NilZero.int_of_string, is_segment.
  destruct s as [|c r]; [discriminate|]. intros H.
  change (String.eqb (String c r) "") with false. simpl negb at 1. rewrite andb_true_l.
  apply negb_true_iff.
  destruct (Ascii.eqb c "-") eqn:Ec.
  - apply Ascii.eqb_eq in Ec. subst c. simpl.
    unfold NilZero.uint_of_string in H.
    destruct r as [|c' r']; [discriminate H|].
    destruct (NilEmpty.uint_of_string (String c' r')) as [u|] eqn:Eu; [|discriminate H].
    exact (digits_no_slash _ _ Eu).
  - unfold NilZero.uint_of_string in H.
    destruct (NilEmpty.uint_of_string (String c r)) as [u|] eqn:Eu; [|discriminate H].
    exact (digits_no_slash _ _ Eu).
Qed.

Lemma str_is_segment (n : Z) : is_segment (str n) = true.
Proof. exact (decimal_int_segment _ _ (decimal_int_str n)). Qed.

(** *** Routing *)

Lemma is_segment_spec (s : string) :
  is_segment s = true <-> s <> "" /\ has_slash s = false.
Proof.
  unfold is_segment. rewrite andb_true_iff, !negb_true_iff. split.
  - intros [H1 H2]. split; [|exact H2]. intros ->. discriminate H1.
  - intros [H1 H2]. split; [|exact H2]. destruct s; [contradiction | reflexivity].
Qed.

(** A path [/tasks/<segment>] goes to the task route, whatever the segment. *)
Lemma route_of_task (seg : string) :
  is_segment seg = true -> route_of ("/tasks/" ++ seg) = Some (RTask seg).
Proof.
  intros H. unfold route_of.
  change (String.eqb ("/tasks/" ++ seg) "/") with false.
  change (strip_prefix "/tasks/" ("/tasks/" ++ seg)) with (Some seg).
  cbv iota. now rewrite H.
Qed.

Lemma route_of_search : route_of "/search" = Some RSearch.
Proof. reflexivity. Qed.

Lemma handle_task (parse_int : string -> option Z) (seg : string) (params : gmap string string) :
  is_segment seg = true ->
  handle parse_int (mkRequest ("/tasks/" ++ seg) params) = call_get_task_by_id parse_int seg.
Proof. intros H. unfold handle. cbn [path query]. now rewrite (route_of_task _ H). Qed.

Lemma handle_search (parse_int : string -> option Z) (params : gmap string string) :
  handle parse_int (mkRequest "/search" params) = call_search_tasks parse_int params.
Proof. reflexivity. Qed.

(* ===================================================================== *)
(** ** Properties of the handlers and of the bound routes *)
(* ===================================================================== *)

Section Properties.

Variable parse_int : string -> option Z.

(** A successful binding of [search_tasks] runs the handler on the bound
    arguments, and only then. *)
Lemma call_search_tasks_ok (params : gmap string string) (body : value) :
  call_search_tasks parse_int params = Ok body <->
  exists q limit offset,
    params !! "q" = Some q /\
    optional_int parse_int "limit" 10 (params !! "limit") = inl limit /\
    optional_int parse_int "offset" 0 (params !! "offset") = inl offset /\
    body = search_tasks q limit offset (params !! "status").
Proof.
  unfold call_search_tasks, required_str. split.
  - destruct (params !! "q") as [q|];
      destruct (optional_int parse_int "limit" 10 (params !! "limit")) as [l|el];
      destruct (optional_int parse_int "offset" 0 (params !! "offset")) as [o|eo];
      intros H; try discriminate H.
    injection H as <-. now exists q, l, o.
  - intros (q & l & o & -> & -> & -> & ->). reflexivity.
Qed.

(** C1: every valid GET /search request (q supplied, limit and offset bound
    to integers) is answered 200 by [search_tasks] on the bound arguments; the
    body has total_results 42, a results list of exactly two records with
    task_id offset+1 and offset+2 in that order, titles that contain q, the
    statuses "pending" and "in_progress" when no status is supplied, and a
    filters object holding the supplied status, limit and offset. *)
Theorem search_tasks_valid_request
    (params : gmap string string) (q : string) (limit offset : Z) :
  params !! "q" = Some q ->
  optional_int parse_int "limit" 10 (params !! "limit") = inl limit ->
  optional_int parse_int "offset" 0 (params !! "offset") = inl offset ->
  exists body first second title1 title2,
    handle parse_int (mkRequest "/search" params) = Ok body /\
    status_code (Ok body) = 200 /\
    body = search_tasks q limit offset (params !! "status") /\
    get "total_results" body = Some (VInt 42) /\
    get "results" body = Some (VList [first; second]) /\
    get "task_id" first = Some (VInt (offset + 1)) /\
    get "task_id" second = Some (VInt (offset + 2)) /\
    get "title" first = Some (VStr title1) /\ contains q title1 /\
    get "title" second = Some (VStr title2) /\ contains q title2 /\
    (params !! "status" = None ->
       get "status" first = Some (VStr "pending") /\
       get "status" second = Some (VStr "in_progress")) /\
    get "filters" body =
      Some (VDict [ ("status", of_optional (params !! "status"));
                    ("limit", VInt limit);
                    ("offset", VInt offset) ]).
Proof.
  intros Hq Hl Ho.
  eexists _, _, _, _, _. split.
  - rewrite handle_search. apply call_search_tasks_ok. now exists q, limit, offset.
  - do 7 (split; [reflexivity|]).
    split; [apply contains_middle|]. split; [reflexivity|].
    split; [apply contains_middle|]. split; [|reflexivity].
    intros ->. split; reflexivity.
Qed.

End Properties.

(** C1 at the request of the spec:
    GET /search?q=X&limit=5&offset=10&status=completed. *)
Lemma search_tasks_valid_request_witness :
  exists body first second title1 title2,
    handle decimal_int (GET "/search" [("q", "X"); ("limit", "5"); ("offset", "10"); ("status", "completed")]) = Ok body /\
    status_code (Ok body) = 200 /\
    body = search_tasks "X" 5 10 (Some "completed") /\
    get "total_results" body = Some (VInt 42) /\
    get "results" body = Some (VList [first; second]) /\
    get "task_id" first = Some (VInt 11) /\
    get "task_id" second = Some (VInt 12) /\
    get "title" first = Some (VStr title1) /\ contains "X" title1 /\
    get "title" second = Some (VStr title2) /\ contains "X" title2 /\
    (Some "completed" = None ->
       get "status" first = Some (VStr "pending") /\
       get "status" second = Some (VStr "in_progress")) /\
    get "filters" body =
      Some (VDict [ ("status", VStr "completed"); ("limit", VInt 5); ("offset", VInt 10) ]).
Proof.
  exact (search_tasks_valid_request decimal_int
           (list_to_map [("q", "X"); ("limit", "5"); ("offset", "10"); ("status", "completed")])
           "X" 5 10 eq_refl eq_refl eq_refl).
Defined.

Section TaskRoute.

Variable parse_int : string -> option Z.

(** C2: for every integer n, on any conversion that reads [str n] back as n,
    GET /tasks/{n} is answered 200 with task_id n, the title "Task #"
    followed by [str n] (so the title contains [str n]), status "pending",
    priority "medium", and the one timestamp literal as created_at. *)
Theorem get_task_by_id_response (n : Z) (params : gmap string string) :
  parse_int (str n) = Some n ->
  exists body title,
    handle parse_int (mkRequest ("/tasks/" ++ str n) params) = Ok body /\
    status_code (Ok body) = 200 /\
    body = get_task_by_id n /\
    get "task_id" body = Some (VInt n) /\
    get "title" body = Some (VStr title) /\
    title = "Task #" ++ str n /\ contains (str n) title /\
    get "status" body = Some (VStr "pending") /\
    get "priority" body = Some (VStr "medium") /\
    get "created_at" body = Some (VStr "2026-01-09T00:00:00Z").
Proof.
  intros Hparse. exists (get_task_by_id n), ("Task #" ++ str n). split.
  - rewrite (handle_task _ _ _ (str_is_segment n)).
    unfold call_get_task_by_id, bind_int. now rewrite Hparse.
  - do 5 (split; [reflexivity|]). split; [apply contains_suffix|].
    repeat split.
Qed.

(** C3: a non-empty path segment without slash that the conversion does
    not read as an integer makes GET /tasks/{segment} answer 422, with a
    detail array whose first element has type "int_parsing" and a loc that
    names task_id; a segment read as the integer n makes it answer 200, by
    [get_task_by_id n]. *)
Theorem get_task_by_id_binding (seg : string) (params : gmap string string) :
  seg <> "" -> has_slash seg = false ->
  let response := handle parse_int (mkRequest ("/tasks/" ++ seg) params) in
  (parse_int seg = None ->
     status_code response = 422 /\
     exists e, first_error response = Some e /\
               err_type e = "int_parsing" /\ In "task_id" (err_loc e)) /\
  (forall n, parse_int seg = Some n ->
     status_code response = 200 /\ response = Ok (get_task_by_id n)).
Proof.
  intros Hne Hslash response. subst response.
  rewrite (handle_task parse_int seg params (proj2 (is_segment_spec seg) (conj Hne Hslash))).
  unfold call_get_task_by_id, bind_int. split.
  - intros ->. split; [reflexivity|].
    eexists. split; [reflexivity|]. split; [reflexivity|]. simpl. auto.
  - intros n ->. split; reflexivity.
Qed.

End TaskRoute.

(** The decimal reader serves every [str n]: GET /tasks/{n} is answered by
    [get_task_by_id n] for all integers n. *)
Corollary get_task_by_id_decimal (n : Z) (params : gmap string string) :
  handle decimal_int (mkRequest ("/tasks/" ++ str n) params) = Ok (get_task_by_id n).
Proof.
  rewrite (handle_task _ _ _ (str_is_segment n)).
  unfold call_get_task_by_id, bind_int. now rewrite decimal_int_str.
Qed.

(** C2 at n = -7: GET /tasks/-7. *)
Lemma get_task_by_id_response_witness :
  exists body title,
    handle decimal_int (GET "/tasks/-7" []) = Ok body /\
    status_code (Ok body) = 200 /\
    body = get_task_by_id (-7) /\
    get "task_id" body = Some (VInt (-7)) /\
    get "title" body = Some (VStr title) /\
    title = "Task #-7" /\ contains "-7" title /\
    get "status" body = Some (VStr "pending") /\
    get "priority" body = Some (VStr "medium") /\
    get "created_at" body = Some (VStr "2026-01-09T00:00:00Z").
Proof.
  exact (get_task_by_id_response decimal_int (-7) (list_to_map []) eq_refl).
Defined.

(** C3 at the float literal 12.3 and at the numeral 42. *)
Lemma get_task_by_id_binding_witness :
  (status_code (handle decimal_int (GET "/tasks/12.3" [])) = 422 /\
   exists e, first_error (handle decimal_int (GET "/tasks/12.3" [])) = Some e /\
             err_type e = "int_parsing" /\ In "task_id" (err_loc e)) /\
  (status_code (handle decimal_int (GET "/tasks/42" [])) = 200 /\
   handle decimal_int (GET "/tasks/42" []) = Ok (get_task_by_id 42)).
Proof.
  split.
  - refine (proj1 (get_task_by_id_binding decimal_int "12.3" (list_to_map []) _ eq_refl) eq_refl).
    discriminate.
  - refine (proj2 (get_task_by_id_binding decimal_int "42" (list_to_map []) _ eq_refl) 42 eq_refl).
    discriminate.
Defined.

Section SearchRoute.

Variable parse_int : string -> option Z.

(** A missing q is reported first, whatever else is wrong. *)
Lemma call_search_tasks_missing_q (params : gmap string string) :
  params !! "q" = None ->
  exists rest,
    call_search_tasks parse_int params = Unprocessable (mkError "missing" ["query"; "q"] :: rest).
Proof.
  intros Hq. unfold call_search_tasks, required_str. rewrite Hq.
  destruct (optional_int parse_int "limit" 10 (params !! "limit"));
    destruct (optional_int parse_int "offset" 0 (params !! "offset"));
    eexists; reflexivity.
Qed.

(** C4: GET /search without q answers 422, and the first element of detail
    has type "missing" and a loc that names q; GET /search with q present and
    empty (the other parameters absent or bound) answers 200 with query "". *)
Theorem search_tasks_q_required (params : gmap string string) :
  (params !! "q" = None ->
     let response := handle parse_int (mkRequest "/search" params) in
     status_code response = 422 /\
     exists e, first_error response = Some e /\
               err_type e = "missing" /\ In "q" (err_loc e)) /\
  (forall limit offset,
     params !! "q" = Some "" ->
     optional_int parse_int "limit" 10 (params !! "limit") = inl limit ->
     optional_int parse_int "offset" 0 (params !! "offset") = inl offset ->
     exists body,
       handle parse_int (mkRequest "/search" params) = Ok body /\
       status_code (Ok body) = 200 /\
       get "query" body = Some (VStr "")).
Proof.
  split.
  - intros Hq response. subst response. rewrite handle_search.
    destruct (call_search_tasks_missing_q params Hq) as [rest ->].
    split; [reflexivity|]. eexists. split; [reflexivity|].
    split; [reflexivity|]. simpl. auto.
  - intros limit offset Hq Hl Ho. eexists. split.
    + rewrite handle_search. apply call_search_tasks_ok. now exists "", limit, offset.
    + split; reflexivity.
Qed.

(** C5: with q supplied, an absent limit binds 10 and an absent offset binds
    0; limit or offset text that is not read as an integer answers 422; and
    any integer read for them, negative ones included, answers 200 with that
    integer unchanged in filters and, for offset, in the two task_id values. *)
Theorem search_tasks_limit_offset (params : gmap string string) (q : string) :
  params !! "q" = Some q ->
  let response := handle parse_int (mkRequest "/search" params) in
  (* defaults *)
  (forall offset, params !! "limit" = None ->
     optional_int parse_int "offset" 0 (params !! "offset") = inl offset ->
     response = Ok (search_tasks q 10 offset (params !! "status"))) /\
  (forall limit, params !! "offset" = None ->
     optional_int parse_int "limit" 10 (params !! "limit") = inl limit ->
     response = Ok (search_tasks q limit 0 (params !! "status"))) /\
  (* text that is not an integer *)
  (forall s, params !! "limit" = Some s -> parse_int s = None ->
     status_code response = 422) /\
  (forall s, params !! "offset" = Some s -> parse_int s = None ->
     status_code response = 422) /\
  (* integers pass through *)
  (forall s limit offset,
     params !! "limit" = Some s -> parse_int s = Some limit ->
     optional_int parse_int "offset" 0 (params !! "offset") = inl offset ->
     exists body,
       response = Ok body /\ status_code response = 200 /\
       get_path ["filters"; "limit"] body = Some (VInt limit)) /\
  (forall s limit offset,
     params !! "offset" = Some s -> parse_int s = Some offset ->
     optional_int parse_int "limit" 10 (params !! "limit") = inl limit ->
     exists body first second,
       response = Ok body /\ status_code response = 200 /\
       get_path ["filters"; "offset"] body = Some (VInt offset) /\
       get "results" body = Some (VList [first; second]) /\
       get "task_id" first = Some (VInt (offset + 1)) /\
       get "task_id" second = Some (VInt (offset + 2))).
Proof.
  intros Hq response. subst response. rewrite handle_search.
  unfold call_search_tasks, required_str. rewrite Hq.
  repeat apply conj.
  - intros offset -> ->. reflexivity.
  - intros limit -> ->. reflexivity.
  - intros s -> Hs. unfold optional_int at 1, bind_int. rewrite Hs.
    now destruct (optional_int parse_int "offset" 0 (params !! "offset")).
  - intros s -> Hs. unfold optional_int at 2, bind_int. rewrite Hs.
    now destruct (optional_int parse_int "limit" 10 (params !! "limit")).
  - intros s limit offset -> Hs ->. unfold optional_int, bind_int. rewrite Hs.
    eexists. repeat split.
  - intros s limit offset -> Hs ->. unfold optional_int, bind_int. rewrite Hs.
    eexists _, _, _. repeat split.
Qed.

End SearchRoute.

(** C4 at GET /search and GET /search?q= . *)
Lemma search_tasks_q_required_witness :
  (status_code (handle decimal_int (GET "/search" [])) = 422 /\
   exists e, first_error (handle decimal_int (GET "/search" [])) = Some e /\
             err_type e = "missing" /\ In "q" (err_loc e)) /\
  (exists body,
     handle decimal_int (GET "/search" [("q", "")]) = Ok body /\
     status_code (Ok body) = 200 /\
     get "query" body = Some (VStr "")).
Proof.
  split.
  - exact (proj1 (search_tasks_q_required decimal_int (list_to_map [])) eq_refl).
  - exact (proj2 (search_tasks_q_required decimal_int (list_to_map [("q", "")]))
             10 0 eq_refl eq_refl eq_refl).
Defined.

(** C5 at GET /search?q=test, ?q=test&limit=notanumber, ?q=test&offset=abc,
    ?q=test&limit=-1 and ?q=test&offset=-10. *)
Lemma search_tasks_limit_offset_witness :
  handle decimal_int (GET "/search" [("q", "test")]) = Ok (search_tasks "test" 10 0 None) /\
  status_code (handle decimal_int (GET "/search" [("q", "test"); ("limit", "notanumber")])) = 422 /\
  status_code (handle decimal_int (GET "/search" [("q", "test"); ("offset", "abc")])) = 422 /\
  (exists body,
     handle decimal_int (GET "/search" [("q", "test"); ("limit", "-1")]) = Ok body /\
     status_code (handle decimal_int (GET "/search" [("q", "test"); ("limit", "-1")])) = 200 /\
     get_path ["filters"; "limit"] body = Some (VInt (-1))) /\
  (exists body first second,
     handle decimal_int (GET "/search" [("q", "test"); ("offset", "-10")]) = Ok body /\
     status_code (handle decimal_int (GET "/search" [("q", "test"); ("offset", "-10")])) = 200 /\
     get_path ["filters"; "offset"] body = Some (VInt (-10)) /\
     get "results" body = Some (VList [first; second]) /\
     get "task_id" first = Some (VInt (-9)) /\
     get "task_id" second = Some (VInt (-8))).
Proof.
  repeat apply conj.
  - destruct (search_tasks_limit_offset decimal_int (query (GET "/search" [("q", "test")])) "test" eq_refl)
      as (Hdefault & _).
    exact (Hdefault 0 eq_refl eq_refl).
  - destruct (search_tasks_limit_offset decimal_int
                (query (GET "/search" [("q", "test"); ("limit", "notanumber")])) "test" eq_refl)
      as (_ & _ & Hlimit & _).
    exact (Hlimit "notanumber" eq_refl eq_refl).
  - destruct (search_tasks_limit_offset decimal_int
                (query (GET "/search" [("q", "test"); ("offset", "abc")])) "test" eq_refl)
      as (_ & _ & _ & Hoffset & _).
    exact (Hoffset "abc" eq_refl eq_refl).
  - destruct (search_tasks_limit_offset decimal_int
                (query (GET "/search" [("q", "test"); ("limit", "-1")])) "test" eq_refl)
      as (_ & _ & _ & _ & Hlimit & _).
    exact (Hlimit "-1" (-1) 0 eq_refl eq_refl eq_refl).
  - destruct (search_tasks_limit_offset decimal_int
                (query (GET "/search" [("q", "test"); ("offset", "-10")])) "test" eq_refl)
      as (_ & _ & _ & _ & _ & Hoffset).
    exact (Hoffset "-10" 10 (-10) eq_refl eq_refl eq_refl).
Defined.

Section Reflection.

Variable parse_int : string -> option Z.

(** C6: every successful GET /search response carries the supplied q as
    its query and the supplied status (or null when absent) as
    filters.status, character for character. *)
Theorem search_tasks_reflects_q_and_status (params : gmap string string) (body : value) :
  handle parse_int (mkRequest "/search" params) = Ok body ->
  exists q,
    params !! "q" = Some q /\
    get "query" body = Some (VStr q) /\
    get_path ["filters"; "status"] body = Some (of_optional (params !! "status")) /\
    (forall status, params !! "status" = Some status ->
       get_path ["filters"; "status"] body = Some (VStr status)).
Proof.
  rewrite handle_search. intros H.
  apply call_search_tasks_ok in H as (q & l & o & Hq & _ & _ & ->).
  exists q. repeat split; try assumption.
  intros status Hs. cbn. now rewrite Hs.
Qed.

End Reflection.

(** C6 at GET /search?q=%20My%20Query%20&status=CoMpLeTed (decoded). *)
Lemma search_tasks_reflects_q_and_status_witness :
  exists q,
    query (GET "/search" [("q", " My Query "); ("status", "CoMpLeTed")]) !! "q" = Some q /\
    get "query" (search_tasks " My Query " 10 0 (Some "CoMpLeTed")) = Some (VStr q) /\
    get_path ["filters"; "status"] (search_tasks " My Query " 10 0 (Some "CoMpLeTed")) =
      Some (of_optional (query (GET "/search" [("q", " My Query "); ("status", "CoMpLeTed")]) !! "status")) /\
    (forall status,
       query (GET "/search" [("q", " My Query "); ("status", "CoMpLeTed")]) !! "status" = Some status ->
       get_path ["filters"; "status"] (search_tasks " My Query " 10 0 (Some "CoMpLeTed")) =
         Some (VStr status)).
Proof.
  exact (search_tasks_reflects_q_and_status decimal_int
           (query (GET "/search" [("q", " My Query "); ("status", "CoMpLeTed")]))
           (search_tasks " My Query " 10 0 (Some "CoMpLeTed")) eq_refl).
Defined.

(** *** The handler bodies read their parameters only *)

(** A body that stamps the current time answers differently at different
    times: the evaluation does tell such a body apart. *)
Example ex_clock_read :
  eval world_morning [] (EDict [("created_at", ENow)]) <>
  eval world_later [] (EDict [("created_at", ENow)]).
Proof. discriminate. Qed.

Section Purity.

Variable parse_int : string -> option Z.

(** In every world the body of [get_welcome_message] has the value
    [get_welcome_message]. *)
Lemma get_welcome_message_body_eval (w : World) (args : list (string * value)) :
  eval w args get_welcome_message_body = Some get_welcome_message.
Proof. reflexivity. Qed.

(** In every world the body of [get_task_by_id], called on [task_id], has
    the value [get_task_by_id task_id]. *)
Lemma get_task_by_id_body_eval (w : World) (task_id : Z) :
  eval w (task_args task_id) get_task_by_id_body = Some (get_task_by_id task_id).
Proof. reflexivity. Qed.

(** In every world the body of [search_tasks], called on its four
    arguments, has the value [search_tasks q limit offset status]. *)
Lemma search_tasks_body_eval (w : World) (q : string) (limit offset : Z) (status : option string) :
  eval w (search_args q limit offset status) search_tasks_body =
  Some (search_tasks q limit offset status).
Proof. destruct status as [[|c r]|]; reflexivity. Qed.

(** Evaluating the bodies in any world gives the response of [handle]. *)
Lemma handle_in_handle (w : World) (req : Request) :
  handle_in parse_int w req = Some (handle parse_int req).
Proof.
  unfold handle_in, handle. destruct (route_of (path req)) as [[|segment|]|]; [| | |reflexivity].
  - reflexivity.
  - unfold serve_in, serve, call_get_task_by_id, respond.
    destruct (bind_int parse_int "path" "task_id" segment) as [task_id|e]; [|reflexivity].
    now rewrite get_task_by_id_body_eval.
  - unfold serve_in, serve, call_search_tasks, respond. cbv zeta.
    destruct (required_str "q" (query req !! "q")) as [q|eq];
      destruct (optional_int parse_int "limit" 10 (query req !! "limit")) as [limit|el];
      destruct (optional_int parse_int "offset" 0 (query req !! "offset")) as [offset|eo];
      try reflexivity.
    now rewrite search_tasks_body_eval.
Qed.

(** C7: the three handlers are deterministic.  Their bodies, evaluated where
    the clock, the random generator and the module-level variables can be
    read, have the same value in any two worlds, for all arguments; so two
    requests with the same path and the same query parameters get the same
    response whatever the worlds they are handled in, the handler never
    raises, and created_at is the one literal timestamp in every world. *)
Theorem handlers_read_only_their_parameters (w1 w2 : World) (r1 r2 : Request) :
  path r1 = path r2 ->
  query r1 = query r2 ->
  handle_in parse_int w1 r1 = handle_in parse_int w2 r2 /\
  (exists response, handle_in parse_int w1 r1 = Some response) /\
  eval w1 [] get_welcome_message_body = eval w2 [] get_welcome_message_body /\
  (forall task_id,
     eval w1 (task_args task_id) get_task_by_id_body =
     eval w2 (task_args task_id) get_task_by_id_body) /\
  (forall q limit offset status,
     eval w1 (search_args q limit offset status) search_tasks_body =
     eval w2 (search_args q limit offset status) search_tasks_body) /\
  (forall task_id,
     exists body, eval w1 (task_args task_id) get_task_by_id_body = Some body /\
                  get "created_at" body = Some (VStr "2026-01-09T00:00:00Z")).
Proof.
  intros Hpath Hquery.
  assert (Hreq : r1 = r2) by (destruct r1, r2; simpl in *; now subst).
  subst r2. repeat apply conj.
  - now rewrite !handle_in_handle.
  - eexists. apply handle_in_handle.
  - now rewrite !get_welcome_message_body_eval.
  - intros task_id. now rewrite !get_task_by_id_body_eval.
  - intros q limit offset status. now rewrite !search_tasks_body_eval.
  - intros task_id. eexists. split; [apply get_task_by_id_body_eval | reflexivity].
Qed.

End Purity.

(** C7 at GET /search?q=test, handled at two times, with two random draws
    and two states of the module-level variables. *)
Lemma handlers_read_only_their_parameters_witness :
  handle_in decimal_int world_morning (GET "/search" [("q", "test")]) =
  handle_in decimal_int world_later (GET "/search" [("q", "test")]) /\
  (exists response,
     handle_in decimal_int world_morning (GET "/search" [("q", "test")]) = Some response) /\
  eval world_morning [] get_welcome_message_body = eval world_later [] get_welcome_message_body /\
  (forall task_id,
     eval world_morning (task_args task_id) get_task_by_id_body =
     eval world_later (task_args task_id) get_task_by_id_body) /\
  (forall q limit offset status,
     eval world_morning (search_args q limit offset status) search_tasks_body =
     eval world_later (search_args q limit offset status) search_tasks_body) /\
  (forall task_id,
     exists body, eval world_morning (task_args task_id) get_task_by_id_body = Some body /\
                  get "created_at" body = Some (VStr "2026-01-09T00:00:00Z")).
Proof.
  exact (handlers_read_only_their_parameters decimal_int world_morning world_later
           (GET "/search" [("q", "test")]) (GET "/search" [("q", "test")])
           eq_refl eq_refl).
Defined.

(** C8: GET /tasks/ does not match the route /tasks/{task_id} (the empty
    text after the last slash is not a segment) nor any other route, and the
    answer is 404, not 422 and not 200. *)
Theorem tasks_empty_segment_not_found
    (parse_int : string -> option Z) (params : gmap string string) :
  let response := handle parse_int (mkRequest "/tasks/" params) in
  strip_prefix "/tasks/" "/tasks/" = Some "" /\
  is_segment "" = false /\
  route_of "/tasks/" = None /\
  response = NotFound /\
  status_code response = 404 /\
  status_code response <> 422 /\
  status_code response <> 200.
Proof. repeat split; discriminate. Qed.

(** C9: with status supplied as the empty string, filters.status is "" while
    the two records carry the defaults "pending" and "in_progress", exactly
    as when status is absent: [or] falls back on every falsy status, and the
    falsy ones are the absent one and the empty one. *)
Theorem search_tasks_empty_status
    (parse_int : string -> option Z) (q : string) (limit offset : Z) :
  let body := search_tasks q limit offset (Some "") in
  handle parse_int (GET "/search" [("q", q); ("status", "")]) = Ok (search_tasks q 10 0 (Some "")) /\
  get_path ["filters"; "status"] body = Some (VStr "") /\
  (exists first second,
     get "results" body = Some (VList [first; second]) /\
     get "status" first = Some (VStr "pending") /\
     get "status" second = Some (VStr "in_progress")) /\
  get "results" body = get "results" (search_tasks q limit offset None) /\
  (forall status default,
     or_else status default = default <->
     status = None \/ status = Some "" \/ status = Some default).
Proof.
  repeat apply conj.
  - reflexivity.
  - reflexivity.
  - eexists _, _. repeat split.
  - reflexivity.
  - intros [[|c r]|] default; simpl; split.
    + auto.
    + reflexivity.
    + intros <-. auto.
    + intros [H|[H|H]]; try discriminate H. now injection H.
    + auto.
    + reflexivity.
Qed.

(** The body of [search_tasks] mentions [limit] in filters.limit only:
    outside the filters entry, and inside it outside the limit entry, two
    bodies that differ in [limit] alone hold the same values. *)
Lemma search_tasks_limit_frame (q : string) (limit1 limit2 offset : Z) (status : option string) :
  let body1 := search_tasks q limit1 offset status in
  let body2 := search_tasks q limit2 offset status in
  (forall key, key <> "filters" -> get key body1 = get key body2) /\
  (forall key, key <> "limit" ->
     get_path ["filters"; key] body1 = get_path ["filters"; key] body2).
Proof.
  split; intros key Hkey.
  - unfold get, search_tasks, lookup_item.
    destruct (String.eqb_spec key "filters") as [E|_]; [contradiction | reflexivity].
  - simpl.
    destruct (String.eqb_spec key "limit") as [E|_]; [contradiction | reflexivity].
Qed.

Section Limit.

Variable parse_int : string -> option Z.

(** C10: two GET /search requests that differ only in the text supplied for
    limit, both read as integers, are answered 200 with bodies that agree on
    query, on total_results and on the whole results list, which has the
    two records with relevance scores 0.95 and 0.87; the bodies agree on
    every entry except filters, and inside filters on every entry except
    limit, which holds the respective integer. *)
Theorem search_tasks_limit_only_in_filters
    (params : gmap string string) (text1 text2 q : string) (limit1 limit2 offset : Z) :
  params !! "q" = Some q ->
  optional_int parse_int "offset" 0 (params !! "offset") = inl offset ->
  parse_int text1 = Some limit1 ->
  parse_int text2 = Some limit2 ->
  exists body1 body2 first second,
    handle parse_int (mkRequest "/search" (<["limit" := text1]> params)) = Ok body1 /\
    handle parse_int (mkRequest "/search" (<["limit" := text2]> params)) = Ok body2 /\
    get "query" body1 = get "query" body2 /\
    get "total_results" body1 = get "total_results" body2 /\
    get "results" body1 = get "results" body2 /\
    get "results" body1 = Some (VList [first; second]) /\
    len (VList [first; second]) = Some 2%nat /\
    get "relevance_score" first = Some (VFloat score_first) /\
    get "relevance_score" second = Some (VFloat score_second) /\
    (forall key, key <> "filters" -> get key body1 = get key body2) /\
    (forall key, key <> "limit" ->
       get_path ["filters"; key] body1 = get_path ["filters"; key] body2) /\
    get_path ["filters"; "limit"] body1 = Some (VInt limit1) /\
    get_path ["filters"; "limit"] body2 = Some (VInt limit2).
Proof.
  intros Hq Ho H1 H2.
  assert (Hcall : forall text limit, parse_int text = Some limit ->
            handle parse_int (mkRequest "/search" (<["limit" := text]> params)) =
            Ok (search_tasks q limit offset (params !! "status"))).
  { intros text limit Htext. rewrite handle_search. apply call_search_tasks_ok.
    exists q, limit, offset.
    rewrite lookup_insert_eq, !lookup_insert_ne by discriminate.
    repeat split; try assumption.
    unfold optional_int, bind_int. now rewrite Htext. }
  destruct (search_tasks_limit_frame q limit1 limit2 offset (params !! "status")) as [Hout Hin].
  eexists _, _, _, _.
  split; [exact (Hcall text1 limit1 H1)|].
  split; [exact (Hcall text2 limit2 H2)|].
  do 7 (split; [reflexivity|]).
  split; [exact Hout|]. split; [exact Hin|]. split; reflexivity.
Qed.

End Limit.

(** C10 at GET /search?q=test&offset=3&status=open with limit=1 and limit=100. *)
Lemma search_tasks_limit_only_in_filters_witness :
  exists body1 body2 first second,
    handle decimal_int (GET "/search" [("limit", "1"); ("q", "test"); ("offset", "3"); ("status", "open")]) = Ok body1 /\
    handle decimal_int (GET "/search" [("limit", "100"); ("q", "test"); ("offset", "3"); ("status", "open")]) = Ok body2 /\
    get "query" body1 = get "query" body2 /\
    get "total_results" body1 = get "total_results" body2 /\
    get "results" body1 = get "results" body2 /\
    get "results" body1 = Some (VList [first; second]) /\
    len (VList [first; second]) = Some 2%nat /\
    get "relevance_score" first = Some (VFloat score_first) /\
    get "relevance_score" second = Some (VFloat score_second) /\
    (forall key, key <> "filters" -> get key body1 = get key body2) /\
    (forall key, key <> "limit" ->
       get_path ["filters"; key] body1 = get_path ["filters"; key] body2) /\
    get_path ["filters"; "limit"] body1 = Some (VInt 1) /\
    get_path ["filters"; "limit"] body2 = Some (VInt 100).
Proof.
  exact (search_tasks_limit_only_in_filters decimal_int
           (query (GET "/search" [("q", "test"); ("offset", "3"); ("status", "open")]))
           "1" "100" "test" 1 100 3 eq_refl eq_refl eq_refl eq_refl).
Defined.

(* ===================================================================== *)
(** ** Further properties of the handlers *)
(* ===================================================================== *)

Lemma append_cancel_l (p a b : string) : p ++ a = p ++ b -> a = b.
Proof.
  induction p as [|c p IH]; intros H; [exact H|].
  change (String c (p ++ a) = String c (p ++ b)) in H.
  injection H as H. exact (IH H).
Qed.

(** [str] spells different integers differently. *)
Lemma str_inj (n m : Z) : str n = str m -> n = m.
Proof.
  intros H. generalize (decimal_int_str n). rewrite H, decimal_int_str.
  intros E. now injection E.
Qed.

Lemma task_ids_search_tasks (q : string) (limit offset : Z) (status : option string) :
  task_ids (search_tasks q limit offset status) = [offset + 1; offset + 2].
Proof. reflexivity. Qed.

(** X1: the welcome message is the answer at the path / and nowhere else: it is
    served there whatever the query parameters, and no response of the task
    or search routes, valid or not, is the welcome message. *)
Theorem welcome_only_at_root (parse_int : string -> option Z) (req : Request) :
  handle parse_int req = Ok get_welcome_message <-> path req = "/".
Proof.
  unfold handle, route_of. destruct (String.eqb_spec (path req) "/") as [E|E].
  - split; [intros _; exact E | reflexivity].
  - split; [|intros H; contradiction]. intros H. exfalso.
    destruct (strip_prefix "/tasks/" (path req)) as [seg|].
    + destruct (is_segment seg); [|discriminate H].
      unfold serve, call_get_task_by_id, bind_int in H.
      destruct (parse_int seg); discriminate H.
    + destruct (String.eqb (path req) "/search"); [|discriminate H].
      unfold serve, call_search_tasks in H.
      destruct (required_str "q" (query req !! "q"));
        destruct (optional_int parse_int "limit" 10 (query req !! "limit"));
        destruct (optional_int parse_int "offset" 0 (query req !! "offset"));
        discriminate H.
Qed.

(** X2: the title of a task names it, and so does its description: two task
    ids have the same title, or the same description, only when they are
    the same id. *)
Theorem task_title_identifies_task (n m : Z) :
  (get "title" (get_task_by_id n) = get "title" (get_task_by_id m) <-> n = m) /\
  (get "description" (get_task_by_id n) = get "description" (get_task_by_id m) <-> n = m).
Proof.
  split; (split; [|intros ->; reflexivity]); intros H.
  - change (Some (VStr ("Task #" ++ str n)) = Some (VStr ("Task #" ++ str m))) in H.
    injection H as H. exact (str_inj _ _ (append_cancel_l _ _ _ H)).
  - change (Some (VStr ("This is task number " ++ str n)) =
            Some (VStr ("This is task number " ++ str m))) in H.
    injection H as H. exact (str_inj _ _ (append_cancel_l _ _ _ H)).
Qed.

(** X3: [search_tasks] returns two records whatever limit is: the number of
    results is within the limit echoed in filters exactly when limit is at
    least 2, so a limit of 1, 0 or below is exceeded. *)
Theorem search_results_exceed_small_limit
    (q : string) (limit offset : Z) (status : option string) :
  let body := search_tasks q limit offset status in
  get_path ["filters"; "limit"] body = Some (VInt limit) /\
  length (results_of body) = 2%nat /\
  (Z.of_nat (length (results_of body)) <= limit <-> 2 <= limit).
Proof. split; [reflexivity|]. split; [reflexivity|]. simpl. reflexivity. Qed.

(** X4: the set of task ids of a page tells its offset: two searches return the
    same set of ids exactly when their offsets are equal, whatever the other
    parameters. *)
Theorem search_ids_determine_offset
    (q1 q2 : string) (limit1 limit2 offset1 offset2 : Z) (status1 status2 : option string) :
  (list_to_set (task_ids (search_tasks q1 limit1 offset1 status1)) : gset Z) =
  list_to_set (task_ids (search_tasks q2 limit2 offset2 status2))
  <-> offset1 = offset2.
Proof.
  rewrite !task_ids_search_tasks. split; [|intros ->; reflexivity]. intros H.
  assert (H1 : offset1 + 1 ∈ (list_to_set [offset2 + 1; offset2 + 2] : gset Z))
    by (rewrite <- H; apply elem_of_list_to_set; left).
  assert (H2 : offset2 + 1 ∈ (list_to_set [offset1 + 1; offset1 + 2] : gset Z))
    by (rewrite H; apply elem_of_list_to_set; left).
  set_unfold. lia.
Qed.

(** X5: pages overlap when offsets are one apart: two searches have a task id in
    common exactly when their offsets differ by at most 1.  Stepping the
    offset by 1 repeats a record; stepping it by 2 or more does not. *)
Theorem search_pages_overlap
    (q1 q2 : string) (limit1 limit2 offset1 offset2 : Z) (status1 status2 : option string) :
  (exists id, In id (task_ids (search_tasks q1 limit1 offset1 status1)) /\
              In id (task_ids (search_tasks q2 limit2 offset2 status2)))
  <-> -1 <= offset1 - offset2 <= 1.
Proof.
  rewrite !task_ids_search_tasks. simpl. split.
  - intros (id & [H1|[H1|[]]] & [H2|[H2|[]]]); lia.
  - intros H. destruct (Z.eq_dec offset1 offset2) as [->|Hne].
    + exists (offset2 + 1). auto.
    + destruct (Z_lt_le_dec offset1 offset2).
      * exists (offset1 + 2). split; [auto|]. left. lia.
      * exists (offset1 + 1). split; [auto|]. right. left. lia.
Qed.

(** [s or d] is never empty when the default [d] is not. *)
Lemma or_else_nonempty (status : option string) (default : string) :
  default <> "" -> or_else status default <> "".
Proof. intros Hd. destruct status as [[|c r]|]; simpl; [exact Hd | discriminate | exact Hd]. Qed.

(** X6: the status of the returned records: every record has a status that is
    a non-empty string, whatever the filter; a non-empty filter is the status
    of every record; and the two records have the same status exactly when
    the filter is a non-empty string. *)
Theorem search_status_of_records
    (q : string) (limit offset : Z) (status : option string) :
  let records := results_of (search_tasks q limit offset status) in
  Forall (fun record => exists s, status_of record = Some s /\ s <> "") records /\
  (forall filter, status = Some filter -> filter <> "" ->
     Forall (fun record => status_of record = Some filter) records) /\
  (forall first second, records = [first; second] ->
     (status_of first = status_of second <-> exists filter, status = Some filter /\ filter <> "")).
Proof.
  repeat apply conj.
  - repeat constructor.
    + exists (or_else status "pending"). split; [reflexivity|]. now apply or_else_nonempty.
    + exists (or_else status "in_progress"). split; [reflexivity|]. now apply or_else_nonempty.
  - intros filter -> Hne. destruct filter as [|c r]; [contradiction|]. repeat constructor.
  - intros first second H. injection H as <- <-.
    change (Some (or_else status "pending") = Some (or_else status "in_progress") <->
            exists filter, status = Some filter /\ filter <> "").
    destruct status as [[|c r]|]; simpl; split.
    + discriminate.
    + intros (filter & E & Hne). injection E as <-. contradiction.
    + intros _. eexists. split; [reflexivity | discriminate].
    + reflexivity.
    + discriminate.
    + intros (filter & E & _). discriminate E.
Qed.

(** X7: the task ids of a page against total_results: both ids lie between 1
    and total_results exactly when the offset lies between 0 and
    total_results - 2; a negative offset gives ids below 1 and an offset past
    that gives ids above total_results. *)
Theorem search_ids_within_total
    (q : string) (limit offset : Z) (status : option string) :
  let body := search_tasks q limit offset status in
  exists total,
    total_results_of body = Some total /\
    (Forall (fun id => 1 <= id <= total) (task_ids body) <-> 0 <= offset <= total - 2).
Proof.
  exists 42. split; [reflexivity|]. simpl. rewrite task_ids_search_tasks.
  rewrite !Forall_cons, Forall_nil. lia.
Qed.

(** X8: the body of [search_tasks] tells its arguments: two calls return the
    same body only for the same q, limit, offset and status. *)
Theorem search_tasks_injective
    (q1 q2 : string) (limit1 limit2 offset1 offset2 : Z) (status1 status2 : option string) :
  search_tasks q1 limit1 offset1 status1 = search_tasks q2 limit2 offset2 status2 <->
  q1 = q2 /\ limit1 = limit2 /\ offset1 = offset2 /\ status1 = status2.
Proof.
  split.
  - unfold search_tasks. intros H.
    injection H as Hq Hstatus Hlimit Hoffset _ _ _ _ _ _.
    repeat split; try assumption.
    destruct status1, status2; simpl in Hstatus; try discriminate Hstatus;
      [now injection Hstatus as -> | reflexivity].
  - intros (-> & -> & -> & ->). reflexivity.
Qed.

(** X9: search, then fetch: every task id returned by a search is answered by
    GET /tasks/{id} with the task of that id.  Without a status filter the
    fetched task has the status of the first record and not that of the
    second: [get_task_by_id] always says "pending". *)
Theorem search_then_fetch
    (q : string) (limit offset : Z) (status : option string) (params : gmap string string) :
  let records := results_of (search_tasks q limit offset status) in
  Forall (fun record =>
            exists id, task_id_of record = Some id /\
              handle decimal_int (mkRequest ("/tasks/" ++ str id) params) = Ok (get_task_by_id id) /\
              task_id_of (get_task_by_id id) = Some id /\
              status_of (get_task_by_id id) = Some "pending") records /\
  (forall first second, records = [first; second] -> status = None ->
     status_of first = Some "pending" /\ status_of second <> Some "pending").
Proof.
  split.
  - repeat constructor; eexists; (split; [reflexivity|]);
      (split; [apply get_task_by_id_decimal | split; reflexivity]).
  - intros first second H ->. injection H as <- <-. split; [reflexivity | discriminate].
Qed.

(** X6 at the filter "completed". *)
Lemma search_status_of_records_witness :
  Forall (fun record => status_of record = Some "completed")
         (results_of (search_tasks "test" 10 0 (Some "completed"))) /\
  (status_of (VDict [ ("task_id", VInt 1); ("title", VStr "Task matching 'test'");
                      ("status", VStr "completed"); ("relevance_score", VFloat score_first) ]) =
   status_of (VDict [ ("task_id", VInt 2); ("title", VStr "Another task for 'test'");
                      ("status", VStr "completed"); ("relevance_score", VFloat score_second) ])
   <-> exists filter, Some "completed" = Some filter /\ filter <> "").
Proof.
  destruct (search_status_of_records "test" 10 0 (Some "completed")) as (_ & Hfilter & Hsame).
  split.
  - apply (Hfilter "completed"); [reflexivity | discriminate].
  - apply Hsame. reflexivity.
Defined.

(** X9 at GET /search?q=test: the ids 1 and 2. *)
Lemma search_then_fetch_witness :
  status_of (VDict [ ("task_id", VInt 1); ("title", VStr "Task matching 'test'");
                     ("status", VStr "pending"); ("relevance_score", VFloat score_first) ]) =
    Some "pending" /\
  status_of (VDict [ ("task_id", VInt 2); ("title", VStr "Another task for 'test'");
                     ("status", VStr "in_progress"); ("relevance_score", VFloat score_second) ]) <>
    Some "pending".
Proof.
  destruct (search_then_fetch "test" 10 0 None ∅) as (_ & Hstatus).
  apply Hstatus; reflexivity.
Defined.
